(** * ecr-image-logger: the Lambda handler of [lambda_function.py]

    A shallow embedding of the module [lambda_function.py]: the values the
    handler receives (JSON decoded by the runtime into Python objects), the
    three Python operations it applies to them ([in], subscription and
    [.get]), the clock, the two service calls and the handler itself, written
    in a state-and-exception monad over an explicit world. *)

From Stdlib Require Import ZArith List String Ascii Bool Lia PeanoNat.
From Stdlib Require Import Floats.SpecFloat DecimalString.
Import ListNotations.
Local Open Scope string_scope.

Set Warnings "-register-all".

(** ** Python values *)

(** What [json.loads] can produce, and therefore what the runtime can hand to
    the handler as [event].  A [dict] keeps its insertion order (it shows in
    [str] of a dict), so it is an association list; JSON objects have string
    keys only. *)
Inductive value : Type :=
| VNone
| VBool (b : bool)
| VInt (z : Z)
| VFloat (f : spec_float)
| VStr (s : string)
| VList (l : list value)
| VDict (d : list (string * value)).

Definition dict := list (string * value).

(** Exceptions by class; [KeyError] carries the missing key, [ServiceError]
    stands for whatever a boto3 call raises (ClientError, a timeout, a
    serialisation TypeError ...), tagged by an opaque code. *)
Inductive exn : Type :=
| TypeError
| AttributeError
| KeyError (key : string)
| ServiceError (code : nat).

Inductive result (A : Type) : Type :=
| Ok (a : A)
| Raise (e : exn).
Arguments Ok {A} a.
Arguments Raise {A} e.

Definition rbind {A B} (r : result A) (k : A -> result B) : result B :=
  match r with
  | Ok a => k a
  | Raise e => Raise e
  end.

Module ResultNotations.
Notation "x <- r ;; k" := (rbind r (fun x => k))
  (at level 61, r at next level, right associativity).
End ResultNotations.
Import ResultNotations.

(** ** Dictionaries *)

Fixpoint dict_lookup (k : string) (d : dict) : option value :=
  match d with
  | [] => None
  | (k', v) :: d' => if String.eqb k k' then Some v else dict_lookup k d'
  end.

Definition dict_mem (k : string) (d : dict) : bool :=
  match dict_lookup k d with
  | Some _ => true
  | None => false
  end.

(** [d.get(k, default)] *)
Definition dict_get (d : dict) (k : string) (default : value) : value :=
  match dict_lookup k d with
  | Some v => v
  | None => default
  end.

(** [d[k] = v]: an existing key keeps its place, a new one goes last. *)
Fixpoint dict_set (k : string) (v : value) (d : dict) : dict :=
  match d with
  | [] => [(k, v)]
  | (k', v') :: d' =>
      if String.eqb k k' then (k', v) :: d' else (k', v') :: dict_set k v d'
  end.

(** ** The three operations of the handler on an arbitrary object *)

(** [sub in s] on two strings *)
Fixpoint is_substring (sub s : string) : bool :=
  if String.prefix sub s then true
  else match s with
       | EmptyString => false
       | String _ s' => is_substring sub s'
       end.

Definition is_str (k : string) (v : value) : bool :=
  match v with
  | VStr s => String.eqb k s
  | _ => false
  end.

(** [k in obj] for a string [k]: key membership on a dict, element
    membership on a list, substring on a string, [TypeError] on anything
    else (None, bool, int and float are not iterable). *)
Definition py_contains (k : string) (obj : value) : result bool :=
  match obj with
  | VDict d => Ok (dict_mem k d)
  | VList l => Ok (existsb (is_str k) l)
  | VStr s => Ok (is_substring k s)
  | _ => Raise TypeError
  end.

(** [obj[k]] for a string [k] *)
Definition py_getitem (obj : value) (k : string) : result value :=
  match obj with
  | VDict d =>
      match dict_lookup k d with
      | Some v => Ok v
      | None => Raise (KeyError k)
      end
  | _ => Raise TypeError
  end.

(** [obj.get(k, default)]: only a dict has the attribute [get]. *)
Definition py_get (obj : value) (k : string) (default : value) : result value :=
  match obj with
  | VDict d => Ok (dict_get d k default)
  | _ => Raise AttributeError
  end.

(** ** Field resolution (lines 21-28) *)

Record fields : Type := {
  image_tag : value;
  repository : value;
  pushed_by : value
}.

Definition unknown_tag : value := VStr "unknown-tag".
Definition unknown_repo : value := VStr "unknown-repo".
Definition unknown_user : value := VStr "unknown-user".

Definition extract_fields (event : value) : result fields :=
  is_bus <- py_contains "detail" event ;;
  if is_bus then
    detail <- py_getitem event "detail" ;;
    tag <- py_get detail "image-tag" unknown_tag ;;
    detail' <- py_getitem event "detail" ;;
    repo <- py_get detail' "repository-name" unknown_repo ;;
    by_ <- py_get event "account" unknown_user ;;
    Ok {| image_tag := tag; repository := repo; pushed_by := by_ |}
  else
    tag <- py_get event "image_tag" unknown_tag ;;
    repo <- py_get event "repository" unknown_repo ;;
    by_ <- py_get event "pushed_by" unknown_user ;;
    Ok {| image_tag := tag; repository := repo; pushed_by := by_ |}.

(** ** The clock and [datetime.isoformat] *)

(** A naive [datetime], as [datetime.utcnow()] returns it. *)
Record datetime : Type := {
  year : Z;
  month : Z;
  day : Z;
  hour : Z;
  minute : Z;
  second : Z;
  microsecond : Z
}.

Definition is_leap (y : Z) : bool :=
  ((y mod 4 =? 0) && (negb (y mod 100 =? 0) || (y mod 400 =? 0)))%Z.

Definition days_in_month (y m : Z) : Z :=
  (if m =? 2 then (if is_leap y then 29 else 28)
   else if (m =? 4) || (m =? 6) || (m =? 9) || (m =? 11) then 30
   else 31)%Z.

(** The ranges every [datetime] object satisfies (MINYEAR = 1,
    MAXYEAR = 9999). *)
Definition valid_datetime (t : datetime) : bool :=
  ((1 <=? year t) && (year t <=? 9999) &&
   (1 <=? month t) && (month t <=? 12) &&
   (1 <=? day t) && (day t <=? days_in_month (year t) (month t)) &&
   (0 <=? hour t) && (hour t <? 24) &&
   (0 <=? minute t) && (minute t <? 60) &&
   (0 <=? second t) && (second t <? 60) &&
   (0 <=? microsecond t) && (microsecond t <? 1000000))%Z.

Definition digit (n : Z) : ascii := ascii_of_N (Z.to_N (48 + n)).

(** [%0wd] on a number [0 <= n < 10^w]: exactly [w] decimal digits, the most
    significant first. *)
Fixpoint zero_padded (w : nat) (n : Z) : string :=
  match w with
  | O => EmptyString
  | S w' =>
      String (digit (n / 10 ^ Z.of_nat w'))
             (zero_padded w' (n mod 10 ^ Z.of_nat w'))
  end.

(** [t.isoformat()] with the default separator and [timespec='auto'], on a
    naive datetime: [YYYY-MM-DDTHH:MM:SS], followed by [.ffffff] when the
    microsecond is not zero; no offset is printed. *)
Definition isoformat (t : datetime) : string :=
  zero_padded 4 (year t) ++ "-" ++ zero_padded 2 (month t) ++ "-" ++
  zero_padded 2 (day t) ++ "T" ++ zero_padded 2 (hour t) ++ ":" ++
  zero_padded 2 (minute t) ++ ":" ++ zero_padded 2 (second t) ++
  (if (microsecond t =? 0)%Z then "" else "." ++ zero_padded 6 (microsecond t)).

(** ** The world outside the handler *)

(** The two boto3 calls of the handler, with their keyword arguments. *)
Inductive call : Type :=
| PutItem (TableName : string) (Item : dict)
| Publish (TopicArn Message Subject : string).

Record notification : Type := {
  topic : string;
  body : string;
  subject : string
}.

(** [utc_clock n] is what the [n]-th reading of the wall clock returns and
    [service_faults n] what the [n]-th service call does ([None]: it returns,
    [Some e]: it raises [e]); [calls] logs the calls attempted, oldest first,
    [table_items] and [topic_messages] what the services accepted. *)
Record world : Type := {
  utc_clock : nat -> datetime;
  clock_reads : nat;
  service_faults : nat -> option exn;
  calls : list call;
  table_items : list (string * dict);
  topic_messages : list notification
}.

Definition tick (w : world) : world :=
  {| utc_clock := utc_clock w; clock_reads := S (clock_reads w);
     service_faults := service_faults w; calls := calls w;
     table_items := table_items w; topic_messages := topic_messages w |}.

Definition log_call (c : call) (w : world) : world :=
  {| utc_clock := utc_clock w; clock_reads := clock_reads w;
     service_faults := service_faults w; calls := (calls w ++ [c])%list;
     table_items := table_items w; topic_messages := topic_messages w |}.

Definition store_item (tbl : string) (item : dict) (w : world) : world :=
  {| utc_clock := utc_clock w; clock_reads := clock_reads w;
     service_faults := service_faults w; calls := calls w;
     table_items := (table_items w ++ [(tbl, item)])%list;
     topic_messages := topic_messages w |}.

Definition deliver (n : notification) (w : world) : world :=
  {| utc_clock := utc_clock w; clock_reads := clock_reads w;
     service_faults := service_faults w; calls := calls w;
     table_items := table_items w;
     topic_messages := (topic_messages w ++ [n])%list |}.

(** ** State and exceptions *)

Definition M (A : Type) : Type := world -> result A * world.

Definition ret {A} (a : A) : M A := fun w => (Ok a, w).

Definition bind {A B} (m : M A) (k : A -> M B) : M B :=
  fun w =>
    match m w with
    | (Ok a, w') => k a w'
    | (Raise e, w') => (Raise e, w')
    end.

Definition lift {A} (r : result A) : M A := fun w => (r, w).

Module MNotations.
Notation "x <~ m ;; k" := (bind m (fun x => k))
  (at level 61, m at next level, right associativity).
Notation "m ;;; k" := (bind m (fun _ => k))
  (at level 61, right associativity).
End MNotations.
Import MNotations.

(** [datetime.utcnow()] *)
Definition utcnow : M datetime :=
  fun w => (Ok (utc_clock w (clock_reads w)), tick w).

(** A service call: it is logged, then it raises or it takes effect. *)
Definition service_call (c : call) (effect : world -> world) : M unit :=
  fun w =>
    match service_faults w (List.length (calls w)) with
    | Some e => (Raise e, log_call c w)
    | None => (Ok tt, effect (log_call c w))
    end.

(** [dynamodb.Table(name).put_item(Item=item)] *)
Definition put_item (name : string) (item : dict) : M unit :=
  service_call (PutItem name item) (store_item name item).

(** [sns.publish(TopicArn=arn, Message=msg, Subject=subj)] *)
Definition publish (arn msg subj : string) : M unit :=
  service_call (Publish arn msg subj)
    (deliver {| topic := arn; body := msg; subject := subj |}).

(** ** Formatting *)

Definition newline : string := String "010"%char EmptyString.
Definition dquote : string := String "034"%char EmptyString.
Definition backslash : string := String "092"%char EmptyString.

Definition hex_digit (n : N) : ascii :=
  if (n <? 10)%N then ascii_of_N (48 + n) else ascii_of_N (87 + n).

(** One character of [json.dumps] on a string with [ensure_ascii] (the
    default): the short escapes, [\u00xx] for the rest outside the printable
    ASCII range.  A character of [string] is a code point below 256. *)
Definition json_escape (c : ascii) : string :=
  let n := N_of_ascii c in
  (if n =? 34 then backslash ++ dquote
   else if n =? 92 then backslash ++ backslash
   else if n =? 10 then backslash ++ "n"
   else if n =? 13 then backslash ++ "r"
   else if n =? 9 then backslash ++ "t"
   else if n =? 8 then backslash ++ "b"
   else if n =? 12 then backslash ++ "f"
   else if (32 <=? n) && (n <=? 126) then String c EmptyString
   else backslash ++ "u00" ++
        String (hex_digit (n / 16)) (String (hex_digit (n mod 16)) EmptyString))%N.

(** [json.dumps(s)] for a string [s] *)
Definition json_dumps_str (s : string) : string :=
  dquote ++ String.concat "" (List.map json_escape (list_ascii_of_string s)) ++ dquote.

Section Handler.

(** [str(v)] of a float, a list or a dict (the interpreter's [repr] of
    floats and of nested containers) is left to the interpreter. *)
Variable str_other : value -> string.

(** What an f-string field [{v}] expands to: [format(v, '')], that is
    [str(v)]. *)
Definition format_value (v : value) : string :=
  match v with
  | VStr s => s
  | VNone => "None"
  | VBool true => "True"
  | VBool false => "False"
  | VInt z => NilZero.string_of_int (Z.to_int z)
  | _ => str_other v
  end.

(** ** Module level (lines 7-12) *)

Record config : Type := {
  DYNAMODB_TABLE : string;
  SNS_TOPIC_ARN : string
}.

(** [boto3.resource(name)] and [boto3.client(name)] build a handle without
    calling the service; [boto3_fault name] is the exception they raise, if
    any (no region configured, unknown service). *)
Variable boto3_fault : string -> option exn.

Definition boto3_handle (name : string) : result unit :=
  match boto3_fault name with
  | Some e => Raise e
  | None => Ok tt
  end.

Fixpoint env_lookup (k : string) (environ : list (string * string))
  : option string :=
  match environ with
  | [] => None
  | (k', v) :: rest => if String.eqb k k' then Some v else env_lookup k rest
  end.

(** [os.environ[k]] *)
Definition environ_getitem (environ : list (string * string)) (k : string)
  : result string :=
  match env_lookup k environ with
  | Some v => Ok v
  | None => Raise (KeyError k)
  end.

(** The statements of the module before [def lambda_handler], in order. *)
Definition module_body (environ : list (string * string)) : result config :=
  _ <- boto3_handle "dynamodb" ;;
  _ <- boto3_handle "sns" ;;
  table <- environ_getitem environ "DYNAMODB_TABLE" ;;
  arn <- environ_getitem environ "SNS_TOPIC_ARN" ;;
  Ok {| DYNAMODB_TABLE := table; SNS_TOPIC_ARN := arn |}.

(** ** [lambda_handler] (lines 14-63) *)

Definition make_item (f : fields) (timestamp : string) : dict :=
  [("Repository", repository f);
   ("ImageTag", image_tag f);
   ("PushedBy", pushed_by f);
   ("Timestamp", VStr timestamp)].

Definition make_message (f : fields) (timestamp : string) : string :=
  ("Docker image pushed successfully!" ++ newline) ++
  ("Repository: " ++ format_value (repository f) ++ newline) ++
  ("Tag: " ++ format_value (image_tag f) ++ newline) ++
  ("Pushed By: " ++ format_value (pushed_by f) ++ newline) ++
  ("Timestamp: " ++ timestamp).

Definition response : value :=
  VDict [("statusCode", VInt 200);
         ("body", VStr (json_dumps_str "Lambda executed successfully!"))].

Definition lambda_handler (cfg : config) (event context : value) : M value :=
  f <~ lift (extract_fields event) ;;
  now <~ utcnow ;;
  let timestamp := isoformat now in
  put_item (DYNAMODB_TABLE cfg) (make_item f timestamp) ;;;
  let message := make_message f timestamp in
  publish (SNS_TOPIC_ARN cfg) message "ECR Image Push Notification" ;;;
  ret response.

(** ** The hosting runtime *)

(** One execution environment: the module is imported once (cold start);
    if that raises, no handler exists and nothing is invoked; otherwise the
    handler is invoked once per event, a failed invocation not stopping the
    next. *)
Fixpoint invoke_all (cfg : config) (events : list value)
  : world -> list (result value) * world :=
  fun w =>
    match events with
    | [] => ([], w)
    | ev :: rest =>
        let (r, w') := lambda_handler cfg ev VNone w in
        let (rs, w'') := invoke_all cfg rest w' in
        (r :: rs, w'')
    end.

Definition execution_environment (environ : list (string * string))
    (events : list value) : world -> result (list (result value)) * world :=
  fun w =>
    match module_body environ with
    | Raise e => (Raise e, w)
    | Ok cfg => let (rs, w') := invoke_all cfg events w in (Ok rs, w')
    end.

End Handler.

(** ** ISO 8601 *)

(** A recogniser of the extended format of ISO 8601 for a calendar date and
    a time of day, [YYYY-MM-DDThh:mm:ss] with an optional decimal fraction of
    six digits: it returns the date and time the string denotes. *)

Definition digit_value (c : ascii) : option Z :=
  let n := Z.of_N (N_of_ascii c) in
  if ((48 <=? n) && (n <=? 57))%Z then Some (n - 48)%Z else None.

Fixpoint read_digits (w : nat) (acc : Z) (s : string) : option (Z * string) :=
  match w with
  | O => Some (acc, s)
  | S w' =>
      match s with
      | EmptyString => None
      | String c s' =>
          match digit_value c with
          | Some d => read_digits w' (10 * acc + d)%Z s'
          | None => None
          end
      end
  end.

Definition expect (c : ascii) (s : string) : option string :=
  match s with
  | String c' s' => if Ascii.eqb c c' then Some s' else None
  | EmptyString => None
  end.

Definition obind {A B} (o : option A) (k : A -> option B) : option B :=
  match o with
  | Some a => k a
  | None => None
  end.

Definition read_fraction (s : string) : option Z :=
  match s with
  | EmptyString => Some 0%Z
  | String c s' =>
      if Ascii.eqb c "."%char then
        match read_digits 6 0 s' with
        | Some (us, EmptyString) => Some us
        | _ => None
        end
      else None
  end.

Definition parse_iso8601 (s : string) : option datetime :=
  obind (read_digits 4 0 s) (fun '(y, s) =>
  obind (expect "-" s) (fun s =>
  obind (read_digits 2 0 s) (fun '(mo, s) =>
  obind (expect "-" s) (fun s =>
  obind (read_digits 2 0 s) (fun '(d, s) =>
  obind (expect "T" s) (fun s =>
  obind (read_digits 2 0 s) (fun '(h, s) =>
  obind (expect ":" s) (fun s =>
  obind (read_digits 2 0 s) (fun '(mi, s) =>
  obind (expect ":" s) (fun s =>
  obind (read_digits 2 0 s) (fun '(se, s) =>
  obind (read_fraction s) (fun us =>
  let t := {| year := y; month := mo; day := d; hour := h; minute := mi;
              second := se; microsecond := us |} in
  if valid_datetime t then Some t else None)))))))))))).

Definition is_iso8601 (s : string) : bool :=
  match parse_iso8601 s with
  | Some _ => true
  | None => false
  end.

(** ** What a computation did *)

(** The service calls a computation makes from [w]: what it appends to the
    log. *)
Definition calls_of {A} (m : M A) (w : world) : list call :=
  skipn (List.length (calls w)) (calls (snd (m w))).

Definition is_put (c : call) : bool :=
  match c with PutItem _ _ => true | Publish _ _ _ => false end.

Definition is_publish (c : call) : bool :=
  match c with PutItem _ _ => false | Publish _ _ _ => true end.

Definition count_puts (cs : list call) : nat :=
  List.length (filter is_put cs).

Definition count_publishes (cs : list call) : nat :=
  List.length (filter is_publish cs).

(** ** What the event supplies: the interface description's two shapes *)

Module Shape.

(** The value an event supplies for a field: under [detail] (or, for the
    account, beside it) when the event has a [detail] key, at the top level
    under the webhook name otherwise. *)
Definition in_detail (event : value) (k : string) : option value :=
  match event with
  | VDict d =>
      match dict_lookup "detail" d with
      | Some (VDict detail) => dict_lookup k detail
      | _ => None
      end
  | _ => None
  end.

Definition at_top (event : value) (k : string) : option value :=
  match event with
  | VDict d => dict_lookup k d
  | _ => None
  end.

Definition is_bus_event (event : value) : bool :=
  match at_top event "detail" with Some _ => true | None => false end.

Definition supplied_tag (event : value) : option value :=
  if is_bus_event event then in_detail event "image-tag"
  else at_top event "image_tag".

Definition supplied_repo (event : value) : option value :=
  if is_bus_event event then in_detail event "repository-name"
  else at_top event "repository".

Definition supplied_user (event : value) : option value :=
  if is_bus_event event then at_top event "account"
  else at_top event "pushed_by".

Definition or_sentinel (o : option value) (sentinel : value) : value :=
  match o with
  | Some v => v
  | None => sentinel
  end.

(** The events on which the three reads are defined: a map whose [detail],
    when it has one, is a map. *)
Definition well_shaped (event : value) : bool :=
  match event with
  | VDict d =>
      match dict_lookup "detail" d with
      | Some (VDict _) | None => true
      | Some _ => false
      end
  | _ => false
  end.

End Shape.

(** ** The runs of the handler *)

Definition timestamp_at (w : world) : string :=
  isoformat (utc_clock w (clock_reads w)).

Definition put_call (cfg : config) (f : fields) (w : world) : call :=
  PutItem (DYNAMODB_TABLE cfg) (make_item f (timestamp_at w)).

Definition publish_call (so : value -> string) (cfg : config) (f : fields)
    (w : world) : call :=
  Publish (SNS_TOPIC_ARN cfg) (make_message so f (timestamp_at w))
          "ECR Image Push Notification".

Definition notification_of (so : value -> string) (cfg : config) (f : fields)
    (w : world) : notification :=
  {| topic := SNS_TOPIC_ARN cfg;
     body := make_message so f (timestamp_at w);
     subject := "ECR Image Push Notification" |}.

(** The four ways an invocation can go, with the result, the world it leaves
    and the calls it made. *)
Inductive handler_run (so : value -> string) (cfg : config) (event : value)
    (w : world) : result value -> world -> list call -> Prop :=
| run_bad_event e :
    extract_fields event = Raise e ->
    handler_run so cfg event w (Raise e) w []
| run_put_raises f e :
    extract_fields event = Ok f ->
    service_faults w (List.length (calls w)) = Some e ->
    handler_run so cfg event w (Raise e)
      (log_call (put_call cfg f w) (tick w))
      [put_call cfg f w]
| run_publish_raises f e :
    extract_fields event = Ok f ->
    service_faults w (List.length (calls w)) = None ->
    service_faults w (S (List.length (calls w))) = Some e ->
    handler_run so cfg event w (Raise e)
      (log_call (publish_call so cfg f w)
         (store_item (DYNAMODB_TABLE cfg) (make_item f (timestamp_at w))
            (log_call (put_call cfg f w) (tick w))))
      [put_call cfg f w; publish_call so cfg f w]
| run_returns f :
    extract_fields event = Ok f ->
    service_faults w (List.length (calls w)) = None ->
    service_faults w (S (List.length (calls w))) = None ->
    handler_run so cfg event w (Ok response)
      (deliver (notification_of so cfg f w)
         (log_call (publish_call so cfg f w)
            (store_item (DYNAMODB_TABLE cfg) (make_item f (timestamp_at w))
               (log_call (put_call cfg f w) (tick w)))))
      [put_call cfg f w; publish_call so cfg f w].

(** ** The notification template of the interface description *)

Module Template.






Definition body : string :=
  String.concat newline
    ["Docker image pushed successfully!";
     "Repository: {repository}";
     "Tag: {image_tag}";
     "Pushed By: {pushed_by}";
     "Timestamp: {timestamp}"].

Definition subject : string := "ECR Image Push Notification".

End Template.

(** ** Example inputs *)

Module Example.

(** A stand-in for [str] on floats, lists and dicts, for the examples,
    none of which formats such a value. *)
Definition str_unused : value -> string := fun _ => "".

Definition cfg : config :=
  {| DYNAMODB_TABLE := "ecr-images"; SNS_TOPIC_ARN := "arn:aws:sns:topic" |}.

Definition leap_day : datetime :=
  {| year := 2024; month := 2; day := 29; hour := 3; minute := 4;
     second := 5; microsecond := 1234 |}.

Definition world_with (faults : nat -> option exn) : world :=
  {| utc_clock := fun _ => leap_day; clock_reads := 0;
     service_faults := faults; calls := [];
     table_items := []; topic_messages := [] |}.

(** Both services answer. *)
Definition quiet : world := world_with (fun _ => None).

(** The first service call (the write) is refused. *)
Definition store_down : world :=
  world_with (fun n => if (n =? 0)%nat then Some (ServiceError 500) else None).

(** The second service call (the dispatch) is refused. *)
Definition topic_down : world :=
  world_with (fun n => if (n =? 1)%nat then Some (ServiceError 503) else None).

Definition bus_event : value :=
  VDict [("detail", VDict [("image-tag", VStr "v1.2");
                           ("repository-name", VStr "myapp")]);
         ("account", VStr "123456789012");
         ("repository", VStr "shadowed")].

Definition hook_event : value :=
  VDict [("image_tag", VStr "latest"); ("repository", VStr "svc");
         ("pushed_by", VStr "ci-bot")].

Definition empty_event : value := VDict [].

(** A webhook payload that happens to carry a [detail] text. *)
Definition hook_event_with_detail_text : value :=
  VDict [("detail", VStr "nightly build"); ("image_tag", VStr "latest");
         ("repository", VStr "svc"); ("pushed_by", VStr "ci-bot")].

(** A webhook payload whose tag is JSON [null]. *)
Definition hook_event_null_tag : value :=
  VDict [("image_tag", VNone); ("repository", VStr "svc");
         ("pushed_by", VStr "ci-bot")].

Definition env_full : list (string * string) :=
  [("DYNAMODB_TABLE", "ecr-images"); ("SNS_TOPIC_ARN", "arn:aws:sns:topic")].

Definition env_no_topic : list (string * string) :=
  [("DYNAMODB_TABLE", "ecr-images")].

Definition boto3_fine : string -> option exn := fun _ => None.

End Example.

(** ** Auxiliary notions for the properties *)

Definition is_map (event : value) : bool :=
  match event with
  | VDict _ => true
  | _ => false
  end.

(** The exception field resolution raises on an event that is not a map:
    [in] fails on what is not iterable, subscription by a string fails on a
    list or a string that contains [detail], and otherwise [.get] is
    missing. *)
Definition non_map_error (event : value) : exn :=
  match event with
  | VStr s => if is_substring "detail" s then TypeError else AttributeError
  | VList l => if existsb (is_str "detail") l then TypeError else AttributeError
  | _ => TypeError
  end.

(** The top-level keys lines 21-28 look at, by shape. *)
Definition read_keys (d : dict) : list string :=
  if dict_mem "detail" d then ["detail"; "account"]
  else ["detail"; "image_tag"; "repository"; "pushed_by"].

Definition is_read (d : dict) (k : string) : bool :=
  existsb (String.eqb k) (read_keys d).

(** [s.split('\n')] *)
Fixpoint lines (s : string) : list string :=
  match s with
  | EmptyString => [EmptyString]
  | String c s' =>
      if Ascii.eqb c "010"%char then EmptyString :: lines s'
      else match lines s' with
           | l :: ls => String c l :: ls
           | [] => [String c EmptyString]
           end
  end.

Fixpoint has_line_feed (s : string) : bool :=
  match s with
  | EmptyString => false
  | String c s' => Ascii.eqb c "010"%char || has_line_feed s'
  end.


(** A call is aimed at the given table or topic, with the fixed subject. *)
Definition targets (table arn : string) (c : call) : Prop :=
  match c with
  | PutItem t _ => t = table
  | Publish a _ s => a = arn /\ s = "ECR Image Push Notification"
  end.

(** * Properties *)

(** ** Dictionaries: lookup after assignment *)

Lemma dict_lookup_set_same (k : string) (v : value) (d : dict) :
  dict_lookup k (dict_set k v d) = Some v.
Proof.
  induction d as [|[k' v'] d IH]; simpl.
  - now rewrite String.eqb_refl.
  - destruct (String.eqb k k') eqn:E; simpl; rewrite E; auto.
Qed.

Lemma dict_lookup_set_other (k k' : string) (v : value) (d : dict) :
  k <> k' -> dict_lookup k' (dict_set k v d) = dict_lookup k' d.
Proof.
  intros Hne.
  induction d as [|[k0 v0] d IH]; simpl.
  - destruct (String.eqb_spec k' k); congruence.
  - destruct (String.eqb_spec k k0) as [->|Hk]; simpl.
    + destruct (String.eqb_spec k' k0); congruence.
    + now rewrite IH.
Qed.

(** ** Field resolution, case by case *)

Lemma extract_fields_dict (d : dict) :
  extract_fields (VDict d) =
  match dict_lookup "detail" d with
  | Some (VDict detail) =>
      Ok {| image_tag := dict_get detail "image-tag" unknown_tag;
            repository := dict_get detail "repository-name" unknown_repo;
            pushed_by := dict_get d "account" unknown_user |}
  | Some _ => Raise AttributeError
  | None =>
      Ok {| image_tag := dict_get d "image_tag" unknown_tag;
            repository := dict_get d "repository" unknown_repo;
            pushed_by := dict_get d "pushed_by" unknown_user |}
  end.
Proof.
  unfold extract_fields, py_contains, dict_mem, py_getitem; simpl.
  destruct (dict_lookup "detail" d) as [v|]; simpl; [|reflexivity].
  destruct v; reflexivity.
Qed.

Lemma extract_fields_not_dict (event : value) :
  (forall d, event <> VDict d) ->
  exists e, extract_fields event = Raise e /\ (e = TypeError \/ e = AttributeError).
Proof.
  intros Hnd.
  destruct event; try (eexists; split; [reflexivity | auto]).
  - unfold extract_fields; simpl.
    destruct (is_substring "detail" s); simpl; eauto.
  - unfold extract_fields; simpl.
    destruct (existsb (is_str "detail") l); simpl; eauto.
  - exfalso; eapply Hnd; reflexivity.
Qed.

Lemma extract_fields_ok_iff (event : value) :
  (exists f, extract_fields event = Ok f) <-> Shape.well_shaped event = true.
Proof.
  split.
  - intros [f Hf].
    destruct event; simpl;
      try (unfold extract_fields in Hf; simpl in Hf; discriminate).
    + unfold extract_fields in Hf; simpl in Hf.
      destruct (is_substring "detail" s); discriminate.
    + unfold extract_fields in Hf; simpl in Hf.
      destruct (existsb (is_str "detail") l); discriminate.
    + rewrite extract_fields_dict in Hf.
      destruct (dict_lookup "detail" d) as [[]|]; congruence.
  - destruct event; simpl; try discriminate.
    rewrite extract_fields_dict.
    destruct (dict_lookup "detail" d) as [[]|]; try discriminate; eauto.
Qed.

Lemma extract_fields_supplied (event : value) (f : fields) :
  extract_fields event = Ok f ->
  image_tag f = Shape.or_sentinel (Shape.supplied_tag event) unknown_tag /\
  repository f = Shape.or_sentinel (Shape.supplied_repo event) unknown_repo /\
  pushed_by f = Shape.or_sentinel (Shape.supplied_user event) unknown_user.
Proof.
  intros Hf.
  assert (Hw : Shape.well_shaped event = true)
    by (apply extract_fields_ok_iff; eauto).
  destruct event; try discriminate.
  rewrite extract_fields_dict in Hf.
  unfold Shape.supplied_tag, Shape.supplied_repo, Shape.supplied_user,
    Shape.is_bus_event, Shape.in_detail, Shape.at_top, Shape.or_sentinel.
  destruct (dict_lookup "detail" d) as [[]|]; inversion Hf; subst; simpl;
    unfold dict_get; auto.
Qed.

(** ** The runs of the handler, for every input *)

Lemma skipn_length_app {A} (l l' : list A) :
  skipn (List.length l) (l ++ l')%list = l'.
Proof. induction l; simpl; auto. Qed.

Lemma length_snoc {A} (l : list A) (a : A) :
  List.length (l ++ [a])%list = S (List.length l).
Proof. rewrite length_app; simpl; lia. Qed.

Lemma lambda_handler_run so cfg event context w :
  handler_run so cfg event w
    (fst (lambda_handler so cfg event context w))
    (snd (lambda_handler so cfg event context w))
    (calls_of (lambda_handler so cfg event context) w).
Proof.
  unfold calls_of, lambda_handler, bind, lift, utcnow, put_item, publish,
    service_call, ret.
  destruct (extract_fields event) as [f|e] eqn:Hf; simpl.
  - destruct (service_faults w (List.length (calls w))) as [e|] eqn:H1; simpl.
    + replace (skipn _ _) with [put_call cfg f w]
        by (symmetry; apply skipn_length_app).
      now apply run_put_raises.
    + rewrite length_snoc.
      destruct (service_faults w (S (List.length (calls w)))) as [e|] eqn:H2;
        simpl;
        (replace (skipn _ _) with [put_call cfg f w; publish_call so cfg f w]
          by (rewrite <- app_assoc; symmetry; apply skipn_length_app)).
      * now apply run_publish_raises.
      * now apply run_returns.
  - replace (skipn _ _) with (@nil call)
      by (symmetry; rewrite <- (app_nil_r (calls w)) at 2;
          apply skipn_length_app).
    now apply run_bad_event.
Qed.

(** The log only grows, by the calls made. *)
Lemma handler_run_log so cfg event w r w' cs :
  handler_run so cfg event w r w' cs -> calls w' = (calls w ++ cs)%list.
Proof.
  intros H; destruct H; simpl.
  - now rewrite app_nil_r.
  - reflexivity.
  - now rewrite <- app_assoc.
  - now rewrite <- app_assoc.
Qed.

Lemma lambda_handler_bad_event so cfg event context w e :
  extract_fields event = Raise e ->
  lambda_handler so cfg event context w = (Raise e, w).
Proof.
  intros He. unfold lambda_handler, bind, lift. now rewrite He.
Qed.

Lemma lambda_handler_resolved so cfg event context w f :
  extract_fields event = Ok f ->
  lambda_handler so cfg event context w =
  match service_faults w (List.length (calls w)) with
  | Some e => (Raise e, log_call (put_call cfg f w) (tick w))
  | None =>
      let w1 := store_item (DYNAMODB_TABLE cfg) (make_item f (timestamp_at w))
                  (log_call (put_call cfg f w) (tick w)) in
      match service_faults w (S (List.length (calls w))) with
      | Some e => (Raise e, log_call (publish_call so cfg f w) w1)
      | None =>
          (Ok response,
           deliver (notification_of so cfg f w)
             (log_call (publish_call so cfg f w) w1))
      end
  end.
Proof.
  intros Hf.
  unfold lambda_handler, bind, lift, utcnow, put_item, publish, service_call,
    ret.
  rewrite Hf. simpl.
  destruct (service_faults w (List.length (calls w))); [reflexivity|].
  simpl. rewrite length_snoc.
  destruct (service_faults w (S (List.length (calls w)))); reflexivity.
Qed.

Lemma app_snoc_neq {A} (l : list A) (a : A) : l <> (l ++ [a])%list.
Proof.
  intros H. apply (f_equal (@List.length A)) in H.
  rewrite length_snoc in H. lia.
Qed.

(** ** The message *)

Lemma append_assoc (a b c : string) : (a ++ b) ++ c = a ++ (b ++ c).
Proof. induction a; simpl; congruence. Qed.

Lemma append_empty_r (a : string) : a ++ "" = a.
Proof. induction a; simpl; congruence. Qed.

Lemma make_message_lines so f ts :
  make_message so f ts =
  String.concat newline
    ["Docker image pushed successfully!";
     "Repository: " ++ format_value so (repository f);
     "Tag: " ++ format_value so (image_tag f);
     "Pushed By: " ++ format_value so (pushed_by f);
     "Timestamp: " ++ ts].
Proof.
  unfold make_message. simpl String.concat.
  repeat rewrite append_assoc. reflexivity.
Qed.


(** ** Field resolution *)

Lemma extract_fields_ignores_hook_keys (d : dict) (v1 v2 v3 : value) :
  dict_mem "detail" d = true ->
  extract_fields
    (VDict (dict_set "repository" v1
              (dict_set "image_tag" v2 (dict_set "pushed_by" v3 d)))) =
  extract_fields (VDict d).
Proof.
  unfold dict_mem. intros Hd.
  rewrite !extract_fields_dict.
  unfold dict_get.
  rewrite !dict_lookup_set_other by discriminate.
  destruct (dict_lookup "detail" d) as [v|]; [reflexivity | discriminate].
Qed.

(** C1: the fields are resolved by a two-way dispatch on the presence of a
    top-level [detail] key.  When [detail] is present (with any value [v]),
    the tag is [v.get('image-tag', ..)], the repository
    [v.get('repository-name', ..)] and the pusher the top-level [account],
    and setting top-level [repository], [image_tag] or [pushed_by] keys to
    anything changes nothing; when [detail] is absent the fields are the
    top-level [image_tag], [repository] and [pushed_by]. *)
Theorem C1_shape_dispatch (d : dict) :
  (forall v, dict_lookup "detail" d = Some v ->
     extract_fields (VDict d) =
       (tag <- py_get v "image-tag" unknown_tag ;;
        repo <- py_get v "repository-name" unknown_repo ;;
        Ok {| image_tag := tag; repository := repo;
              pushed_by := dict_get d "account" unknown_user |}) /\
     forall v1 v2 v3,
       extract_fields
         (VDict (dict_set "repository" v1
                   (dict_set "image_tag" v2 (dict_set "pushed_by" v3 d)))) =
       extract_fields (VDict d)) /\
  (dict_lookup "detail" d = None ->
     extract_fields (VDict d) =
       Ok {| image_tag := dict_get d "image_tag" unknown_tag;
             repository := dict_get d "repository" unknown_repo;
             pushed_by := dict_get d "pushed_by" unknown_user |}).
Proof.
  split.
  - intros v Hv. split.
    + rewrite extract_fields_dict, Hv. destruct v; reflexivity.
    + intros v1 v2 v3. apply extract_fields_ignores_hook_keys.
      unfold dict_mem. now rewrite Hv.
  - intros Hnone. now rewrite extract_fields_dict, Hnone.
Qed.

Lemma C1_shape_dispatch_witness :
  extract_fields Example.bus_event =
    Ok {| image_tag := VStr "v1.2"; repository := VStr "myapp";
          pushed_by := VStr "123456789012" |} /\
  extract_fields Example.hook_event =
    Ok {| image_tag := VStr "latest"; repository := VStr "svc";
          pushed_by := VStr "ci-bot" |}.
Proof.
  split.
  - exact (proj1 (proj1 (C1_shape_dispatch
             [("detail", VDict [("image-tag", VStr "v1.2");
                                ("repository-name", VStr "myapp")]);
              ("account", VStr "123456789012");
              ("repository", VStr "shadowed")]) _ eq_refl)).
  - exact (proj2 (C1_shape_dispatch
             [("image_tag", VStr "latest"); ("repository", VStr "svc");
              ("pushed_by", VStr "ci-bot")]) eq_refl).
Defined.

(** C2, as stated, fails: a webhook payload that carries a [detail] text
    makes [event['detail'].get] raise [AttributeError]; the invocation
    aborts before any record or notification. *)
Lemma C2_detail_text_aborts :
  (~ exists f, extract_fields Example.hook_event_with_detail_text = Ok f) /\
  lambda_handler Example.str_unused Example.cfg
    Example.hook_event_with_detail_text VNone Example.quiet =
  (Raise AttributeError, Example.quiet).
Proof.
  split.
  - intros [f Hf]. discriminate Hf.
  - reflexivity.
Qed.

(** C2, amended: on every event that is a map whose [detail], when present,
    is a map, field resolution does not raise; each field the event does not
    supply gets its sentinel; and when the two service calls answer, the
    handler returns, having stored one record and sent one notification. *)
Theorem C2_well_shaped_never_aborts so cfg event context w :
  Shape.well_shaped event = true ->
  exists f,
    extract_fields event = Ok f /\
    (Shape.supplied_tag event = None -> image_tag f = VStr "unknown-tag") /\
    (Shape.supplied_repo event = None -> repository f = VStr "unknown-repo") /\
    (Shape.supplied_user event = None -> pushed_by f = VStr "unknown-user") /\
    (service_faults w (List.length (calls w)) = None ->
     service_faults w (S (List.length (calls w))) = None ->
     fst (lambda_handler so cfg event context w) = Ok response /\
     table_items (snd (lambda_handler so cfg event context w)) =
       (table_items w ++
        [(DYNAMODB_TABLE cfg, make_item f (timestamp_at w))])%list /\
     topic_messages (snd (lambda_handler so cfg event context w)) =
       (topic_messages w ++ [notification_of so cfg f w])%list).
Proof.
  intros Hw.
  destruct (proj2 (extract_fields_ok_iff event) Hw) as [f Hf].
  destruct (extract_fields_supplied _ _ Hf) as (Ht & Hr & Hu).
  exists f. repeat split.
  - exact Hf.
  - intros Hn. now rewrite Ht, Hn.
  - intros Hn. now rewrite Hr, Hn.
  - intros Hn. now rewrite Hu, Hn.
  - pose proof (lambda_handler_run so cfg event context w) as R.
    inversion R; congruence.
  - pose proof (lambda_handler_run so cfg event context w) as R.
    inversion R; try congruence.
    assert (f0 = f) by congruence. subst f0. reflexivity.
  - pose proof (lambda_handler_run so cfg event context w) as R.
    inversion R; try congruence.
    assert (f0 = f) by congruence. subst f0. reflexivity.
Qed.

Lemma C2_well_shaped_never_aborts_witness :
  exists f,
    extract_fields Example.empty_event = Ok f /\
    image_tag f = VStr "unknown-tag" /\
    repository f = VStr "unknown-repo" /\
    pushed_by f = VStr "unknown-user" /\
    fst (lambda_handler Example.str_unused Example.cfg Example.empty_event
           VNone Example.quiet) = Ok response.
Proof.
  destruct (C2_well_shaped_never_aborts Example.str_unused Example.cfg
              Example.empty_event VNone Example.quiet eq_refl)
    as (f & Hf & Ht & Hr & Hu & Hrun).
  exists f.
  exact (conj Hf (conj (Ht eq_refl) (conj (Hr eq_refl) (conj (Hu eq_refl)
           (proj1 (Hrun eq_refl eq_refl)))))).
Defined.

(** ** The persisted record *)

Lemma or_sentinel_none_iff (o : option value) (s : string) :
  Shape.or_sentinel o (VStr s) = VNone <-> o = Some VNone.
Proof.
  destruct o as [v|]; simpl; split; intros H; try congruence; discriminate.
Qed.

(** What a run stored, if it stored anything. *)
Lemma handler_run_stored so cfg event w r w' cs tbl item :
  handler_run so cfg event w r w' cs ->
  table_items w' = (table_items w ++ [(tbl, item)])%list ->
  exists f, extract_fields event = Ok f /\
            tbl = DYNAMODB_TABLE cfg /\ item = make_item f (timestamp_at w).
Proof.
  intros R Hs. destruct R; simpl in Hs.
  - exfalso. exact (app_snoc_neq _ _ Hs).
  - exfalso. exact (app_snoc_neq _ _ Hs).
  - apply app_inv_head in Hs. inversion Hs; subst. eauto.
  - apply app_inv_head in Hs. inversion Hs; subst. eauto.
Qed.

(** C3, as stated, fails: a webhook payload whose [image_tag] is JSON
    [null] has the key, so [.get] returns [None] and the record is stored
    with a null [ImageTag]. *)
Lemma C3_null_tag_is_stored :
  exists item,
    table_items (snd (lambda_handler Example.str_unused Example.cfg
                        Example.hook_event_null_tag VNone Example.quiet)) =
      [("ecr-images", item)] /\
    dict_lookup "ImageTag" item = Some VNone.
Proof. eexists. split; reflexivity. Qed.

(** C3, amended: whenever a record is persisted it has exactly the four
    attributes [Repository], [ImageTag], [PushedBy] and [Timestamp]; a field
    the event does not supply is stored as its sentinel, a field it supplies
    is stored as supplied, so an attribute is null exactly when the event
    supplies null for it; the [Timestamp] is a string. *)
Theorem C3_record_attributes so cfg event context w tbl item :
  table_items (snd (lambda_handler so cfg event context w)) =
    (table_items w ++ [(tbl, item)])%list ->
  List.map fst item = ["Repository"; "ImageTag"; "PushedBy"; "Timestamp"] /\
  dict_lookup "Repository" item =
    Some (Shape.or_sentinel (Shape.supplied_repo event) (VStr "unknown-repo")) /\
  dict_lookup "ImageTag" item =
    Some (Shape.or_sentinel (Shape.supplied_tag event) (VStr "unknown-tag")) /\
  dict_lookup "PushedBy" item =
    Some (Shape.or_sentinel (Shape.supplied_user event) (VStr "unknown-user")) /\
  dict_lookup "Timestamp" item = Some (VStr (timestamp_at w)) /\
  (dict_lookup "Repository" item = Some VNone <->
     Shape.supplied_repo event = Some VNone) /\
  (dict_lookup "ImageTag" item = Some VNone <->
     Shape.supplied_tag event = Some VNone) /\
  (dict_lookup "PushedBy" item = Some VNone <->
     Shape.supplied_user event = Some VNone).
Proof.
  intros Hs.
  destruct (handler_run_stored _ _ _ _ _ _ _ _ _
              (lambda_handler_run so cfg event context w) Hs)
    as (f & Hf & -> & ->).
  destruct (extract_fields_supplied _ _ Hf) as (Ht & Hr & Hu).
  unfold unknown_tag, unknown_repo, unknown_user in *.
  simpl. rewrite Ht, Hr, Hu.
  repeat (split; [reflexivity|]).
  repeat split; intros H.
  - apply or_sentinel_none_iff with (s := "unknown-repo"). congruence.
  - now rewrite H.
  - apply or_sentinel_none_iff with (s := "unknown-tag"). congruence.
  - now rewrite H.
  - apply or_sentinel_none_iff with (s := "unknown-user"). congruence.
  - now rewrite H.
Qed.

Lemma C3_record_attributes_witness :
  dict_lookup "Repository"
    (make_item {| image_tag := VStr "unknown-tag";
                  repository := VStr "unknown-repo";
                  pushed_by := VStr "unknown-user" |}
               (timestamp_at Example.quiet)) =
  Some (VStr "unknown-repo").
Proof.
  exact (proj1 (proj2 (C3_record_attributes Example.str_unused Example.cfg
           Example.empty_event VNone Example.quiet _ _ eq_refl))).
Defined.

(** ** The notification *)




(** ** The response *)



(** ** The timestamp *)

Lemma digit_value_digit (d : Z) :
  (0 <= d < 10)%Z -> digit_value (digit d) = Some d.
Proof.
  intros Hd.
  assert (H : (d = 0 \/ d = 1 \/ d = 2 \/ d = 3 \/ d = 4 \/ d = 5 \/ d = 6 \/
               d = 7 \/ d = 8 \/ d = 9)%Z) by lia.
  repeat (destruct H as [->|H]; [reflexivity|]). subst d. reflexivity.
Qed.

Lemma read_digits_zero_padded (w : nat) :
  forall (n acc : Z) (rest : string),
    (0 <= n < 10 ^ Z.of_nat w)%Z ->
    read_digits w acc (zero_padded w n ++ rest) =
    Some ((acc * 10 ^ Z.of_nat w + n)%Z, rest).
Proof.
  induction w as [|w IH]; intros n acc rest Hn.
  - simpl in *. do 2 f_equal. lia.
  - rewrite Nat2Z.inj_succ, Z.pow_succ_r in * by lia.
    assert (Hp : (0 < 10 ^ Z.of_nat w)%Z) by (apply Z.pow_pos_nonneg; lia).
    assert (Hq : (0 <= n / 10 ^ Z.of_nat w < 10)%Z).
    { split; [apply Z.div_pos; lia | apply Z.div_lt_upper_bound; lia]. }
    assert (Hr : (0 <= n mod 10 ^ Z.of_nat w < 10 ^ Z.of_nat w)%Z)
      by (apply Z.mod_pos_bound; lia).
    cbn [zero_padded append read_digits].
    rewrite (digit_value_digit _ Hq), (IH _ _ _ Hr).
    do 2 f_equal.
    pose proof (Z.div_mod n (10 ^ Z.of_nat w) ltac:(lia)) as Hdm.
    rewrite Hdm at 3. ring.
Qed.

Lemma read_digits_zero_padded_0 (w : nat) (n : Z) (rest : string) :
  (0 <= n < 10 ^ Z.of_nat w)%Z ->
  read_digits w 0 (zero_padded w n ++ rest) = Some (n, rest).
Proof.
  intros Hn. rewrite read_digits_zero_padded by exact Hn.
  do 2 f_equal.
Qed.

Lemma days_in_month_le_31 (y m : Z) : (days_in_month y m <= 31)%Z.
Proof.
  unfold days_in_month.
  destruct (m =? 2)%Z; [destruct (is_leap y); lia|].
  destruct ((m =? 4) || (m =? 6) || (m =? 9) || (m =? 11))%Z; lia.
Qed.

Lemma read_fraction_micro (us : Z) :
  (0 <= us < 1000000)%Z ->
  read_fraction (if (us =? 0)%Z then "" else "." ++ zero_padded 6 us) = Some us.
Proof.
  intros Hus. destruct (Z.eqb_spec us 0) as [->|Hne].
  - reflexivity.
  - change ("." ++ zero_padded 6 us) with (String "."%char (zero_padded 6 us)).
    cbv beta iota delta [read_fraction]. rewrite Ascii.eqb_refl.
    rewrite <- (append_empty_r (zero_padded 6 us)).
    rewrite read_digits_zero_padded_0 by (change (10 ^ Z.of_nat 6)%Z with 1000000%Z; lia).
    reflexivity.
Qed.

(** [isoformat] prints an ISO 8601 date and time, the one it was given. *)
Lemma parse_isoformat (t : datetime) :
  valid_datetime t = true -> parse_iso8601 (isoformat t) = Some t.
Proof.
  intros Hv. pose proof Hv as Hv'.
  unfold valid_datetime in Hv'.
  repeat rewrite andb_true_iff in Hv'.
  repeat rewrite Z.leb_le in Hv'. repeat rewrite Z.ltb_lt in Hv'.
  repeat match goal with H : _ /\ _ |- _ => destruct H end.
  pose proof (days_in_month_le_31 (year t) (month t)) as Hdm.
  unfold parse_iso8601, isoformat.
  rewrite read_digits_zero_padded_0
    by (change (10 ^ Z.of_nat 4)%Z with 10000%Z; lia).
  cbn [obind expect append]. rewrite Ascii.eqb_refl. cbn [obind].
  rewrite read_digits_zero_padded_0
    by (change (10 ^ Z.of_nat 2)%Z with 100%Z; lia).
  cbn [obind expect append]. rewrite Ascii.eqb_refl. cbn [obind].
  rewrite read_digits_zero_padded_0
    by (change (10 ^ Z.of_nat 2)%Z with 100%Z; lia).
  cbn [obind expect append]. rewrite Ascii.eqb_refl. cbn [obind].
  rewrite read_digits_zero_padded_0
    by (change (10 ^ Z.of_nat 2)%Z with 100%Z; lia).
  cbn [obind expect append]. rewrite Ascii.eqb_refl. cbn [obind].
  rewrite read_digits_zero_padded_0
    by (change (10 ^ Z.of_nat 2)%Z with 100%Z; lia).
  cbn [obind expect append]. rewrite Ascii.eqb_refl. cbn [obind].
  rewrite read_digits_zero_padded_0
    by (change (10 ^ Z.of_nat 2)%Z with 100%Z; lia).
  cbn [obind].
  rewrite read_fraction_micro by lia.
  cbn [obind].
  destruct t; cbn [year month day hour minute second microsecond] in *.
  now rewrite Hv.
Qed.

(** What a run wrote, if it attempted a write. *)
Lemma handler_run_put so cfg event w r w' cs tbl item :
  handler_run so cfg event w r w' cs ->
  In (PutItem tbl item) cs ->
  exists f, extract_fields event = Ok f /\
            tbl = DYNAMODB_TABLE cfg /\ item = make_item f (timestamp_at w).
Proof.
  intros R Hin. destruct R; simpl in Hin; unfold put_call, publish_call in Hin;
    repeat (destruct Hin as [Hin|Hin]; try discriminate Hin);
    try contradiction; inversion Hin; subst; eauto.
Qed.

(** C6: the timestamp of the record is the ISO 8601 rendering of the UTC
    clock as read during the invocation (it parses back to that reading),
    and it does not depend on the event: two invocations that read the same
    clock value write the same timestamp, whatever their events. *)
Theorem C6_timestamp_from_clock so cfg event context w tbl item :
  valid_datetime (utc_clock w (clock_reads w)) = true ->
  In (PutItem tbl item) (calls_of (lambda_handler so cfg event context) w) ->
  dict_lookup "Timestamp" item =
    Some (VStr (isoformat (utc_clock w (clock_reads w)))) /\
  parse_iso8601 (isoformat (utc_clock w (clock_reads w))) =
    Some (utc_clock w (clock_reads w)) /\
  is_iso8601 (isoformat (utc_clock w (clock_reads w))) = true /\
  forall cfg' event' context' w' tbl' item',
    utc_clock w' (clock_reads w') = utc_clock w (clock_reads w) ->
    In (PutItem tbl' item')
       (calls_of (lambda_handler so cfg' event' context') w') ->
    dict_lookup "Timestamp" item' = dict_lookup "Timestamp" item.
Proof.
  intros Hv Hin.
  destruct (handler_run_put _ _ _ _ _ _ _ _ _
              (lambda_handler_run so cfg event context w) Hin)
    as (f & Hf & -> & ->).
  pose proof (parse_isoformat _ Hv) as Hp.
  repeat split.
  - exact Hp.
  - unfold is_iso8601. now rewrite Hp.
  - intros cfg' event' context' w' tbl' item' Hclock Hin'.
    destruct (handler_run_put _ _ _ _ _ _ _ _ _
                (lambda_handler_run so cfg' event' context' w') Hin')
      as (f' & Hf' & -> & ->).
    unfold timestamp_at. simpl. now rewrite Hclock.
Qed.

Lemma C6_timestamp_from_clock_witness :
  parse_iso8601 (isoformat Example.leap_day) = Some Example.leap_day.
Proof.
  exact (proj1 (proj2 (C6_timestamp_from_clock Example.str_unused Example.cfg
           Example.bus_event VNone Example.quiet _ _ eq_refl
           (or_introl eq_refl)))).
Defined.

(** ** The service calls and their order *)

(** C7, as stated, fails: when the store refuses the write, the invocation
    makes one write call and no dispatch at all. *)
Lemma C7_refused_write_no_dispatch :
  calls_of (lambda_handler Example.str_unused Example.cfg Example.empty_event
              VNone) Example.store_down =
    [put_call Example.cfg
       {| image_tag := unknown_tag; repository := unknown_repo;
          pushed_by := unknown_user |} Example.store_down] /\
  count_publishes
    (calls_of (lambda_handler Example.str_unused Example.cfg
                 Example.empty_event VNone) Example.store_down) <> 1.
Proof. split; [reflexivity | discriminate]. Qed.

(** C7, amended: an invocation that returns has made exactly one write and
    then exactly one dispatch, each accepted, and nothing else.  In any
    invocation the calls made are none exactly when field resolution
    raised, the write alone exactly when the write raised, and the write
    followed by the dispatch exactly when the write returned: at most one
    of each, the dispatch attempted only after the write has returned
    without raising, and always attempted then.  There is no other effect:
    the store gains the record exactly when the write was accepted, the
    topic the notification exactly when the dispatch was accepted, and
    nothing else of the world outside changes. *)
Theorem C7_calls_in_order so cfg event context w :
  (forall r, fst (lambda_handler so cfg event context w) = Ok r ->
     exists f,
       calls_of (lambda_handler so cfg event context) w =
         [put_call cfg f w; publish_call so cfg f w] /\
       table_items (snd (lambda_handler so cfg event context w)) =
         (table_items w ++
          [(DYNAMODB_TABLE cfg, make_item f (timestamp_at w))])%list /\
       topic_messages (snd (lambda_handler so cfg event context w)) =
         (topic_messages w ++ [notification_of so cfg f w])%list) /\
  (forall arn msg subj,
     In (Publish arn msg subj)
        (calls_of (lambda_handler so cfg event context) w) ->
     exists f,
       calls_of (lambda_handler so cfg event context) w =
         [put_call cfg f w; Publish arn msg subj] /\
       service_faults w (List.length (calls w)) = None /\
       table_items (snd (lambda_handler so cfg event context w)) =
         (table_items w ++
          [(DYNAMODB_TABLE cfg, make_item f (timestamp_at w))])%list) /\
  count_puts (calls_of (lambda_handler so cfg event context) w) <= 1 /\
  count_publishes (calls_of (lambda_handler so cfg event context) w) <=
    count_puts (calls_of (lambda_handler so cfg event context) w) /\
  calls (snd (lambda_handler so cfg event context w)) =
    (calls w ++ calls_of (lambda_handler so cfg event context) w)%list /\
  List.length (table_items (snd (lambda_handler so cfg event context w))) <=
    List.length (table_items w) +
    count_puts (calls_of (lambda_handler so cfg event context) w) /\
  List.length (topic_messages (snd (lambda_handler so cfg event context w))) <=
    List.length (topic_messages w) +
    count_publishes (calls_of (lambda_handler so cfg event context) w) /\
  (* field resolution raised: no call, nothing changed *)
  (forall e, extract_fields event = Raise e ->
     lambda_handler so cfg event context w = (Raise e, w) /\
     calls_of (lambda_handler so cfg event context) w = []) /\
  (* the write raised: the write alone, nothing stored, nothing sent *)
  (forall f e,
     extract_fields event = Ok f ->
     service_faults w (List.length (calls w)) = Some e ->
     fst (lambda_handler so cfg event context w) = Raise e /\
     calls_of (lambda_handler so cfg event context) w = [put_call cfg f w] /\
     table_items (snd (lambda_handler so cfg event context w)) =
       table_items w /\
     topic_messages (snd (lambda_handler so cfg event context w)) =
       topic_messages w) /\
  (* the write returned: the record is stored and the dispatch attempted *)
  (forall f,
     extract_fields event = Ok f ->
     service_faults w (List.length (calls w)) = None ->
     calls_of (lambda_handler so cfg event context) w =
       [put_call cfg f w; publish_call so cfg f w] /\
     table_items (snd (lambda_handler so cfg event context w)) =
       (table_items w ++
        [(DYNAMODB_TABLE cfg, make_item f (timestamp_at w))])%list /\
     (forall e,
        service_faults w (S (List.length (calls w))) = Some e ->
        fst (lambda_handler so cfg event context w) = Raise e /\
        topic_messages (snd (lambda_handler so cfg event context w)) =
          topic_messages w) /\
     (service_faults w (S (List.length (calls w))) = None ->
        fst (lambda_handler so cfg event context w) = Ok response /\
        topic_messages (snd (lambda_handler so cfg event context w)) =
          (topic_messages w ++ [notification_of so cfg f w])%list)) /\
  (* which of the three it is *)
  (calls_of (lambda_handler so cfg event context) w = [] <->
     exists e, extract_fields event = Raise e) /\
  (List.length (calls_of (lambda_handler so cfg event context) w) = 1 <->
     exists f e, extract_fields event = Ok f /\
                 service_faults w (List.length (calls w)) = Some e) /\
  (List.length (calls_of (lambda_handler so cfg event context) w) = 2 <->
     exists f, extract_fields event = Ok f /\
               service_faults w (List.length (calls w)) = None) /\
  (* the clock and the services' behaviour are not altered *)
  utc_clock (snd (lambda_handler so cfg event context w)) = utc_clock w /\
  service_faults (snd (lambda_handler so cfg event context w)) =
    service_faults w.
Proof.
  pose proof (lambda_handler_run so cfg event context w) as R.
  pose proof (handler_run_log _ _ _ _ _ _ _ R) as Hlog.
  split; [|split; [|split; [|split; [|split; [exact Hlog|]]]]].
  - intros r Hr. destruct R; try discriminate Hr. exists f. auto.
  - intros arn msg subj Hin.
    destruct R; simpl in Hin; unfold put_call, publish_call in Hin;
      repeat (destruct Hin as [Hin|Hin]; try discriminate Hin);
      try contradiction; inversion Hin; subst; exists f; auto.
  - destruct R; unfold count_puts; simpl; lia.
  - destruct R; unfold count_puts, count_publishes; simpl; lia.
  - split; [|split; [|split; [|split; [|split; [|split; [|split;
      [|split; [|split]]]]]]]].
    + destruct R; simpl; rewrite ?length_snoc; unfold count_puts; simpl; lia.
    + destruct R; simpl; rewrite ?length_snoc; unfold count_publishes;
        simpl; lia.
    + intros e He. split.
      * apply lambda_handler_bad_event. exact He.
      * destruct R; congruence.
    + intros f e Hf H1. inversion R; try congruence.
      assert (f0 = f) by congruence. assert (e0 = e) by congruence. subst.
      auto.
    + intros f Hf H1. inversion R; try congruence;
        assert (f0 = f) by congruence; subst f0;
        (split; [reflexivity|]); (split; [reflexivity|]); split.
      * intros e' He'. assert (e' = e) by congruence. subst. auto.
      * intros Hn. congruence.
      * intros e' He'. congruence.
      * intros _. auto.
    + destruct R; split; intros Hx; try discriminate Hx; eauto;
        destruct Hx as [e' He']; congruence.
    + destruct R; split; intros Hx; try discriminate Hx; eauto;
        destruct Hx as (f' & e' & Hf' & He'); congruence.
    + destruct R; split; intros Hx; try discriminate Hx; eauto;
        destruct Hx as (f' & Hf' & He'); congruence.
    + destruct R; reflexivity.
    + destruct R; reflexivity.
Qed.

Lemma C7_calls_in_order_witness :
  calls_of (lambda_handler Example.str_unused Example.cfg Example.hook_event
              VNone) Example.quiet =
  [PutItem "ecr-images"
     [("Repository", VStr "svc"); ("ImageTag", VStr "latest");
      ("PushedBy", VStr "ci-bot");
      ("Timestamp", VStr "2024-02-29T03:04:05.001234")];
   Publish "arn:aws:sns:topic"
     (String.concat newline
        ["Docker image pushed successfully!";
         "Repository: svc";
         "Tag: latest";
         "Pushed By: ci-bot";
         "Timestamp: 2024-02-29T03:04:05.001234"])
     "ECR Image Push Notification"].
Proof.
  destruct (C7_calls_in_order Example.str_unused Example.cfg
              Example.hook_event VNone Example.quiet)
    as (_ & _ & _ & _ & _ & _ & _ & _ & _ & Hreturned & _).
  exact (proj1 (Hreturned
                  {| image_tag := VStr "latest"; repository := VStr "svc";
                     pushed_by := VStr "ci-bot" |} eq_refl eq_refl)).
Defined.

(** ** Failures of the service calls *)

(** C8: an exception raised by the write or by the dispatch leaves the
    handler as it is (no envelope is returned).  When the write raises,
    nothing is stored and no dispatch is attempted; when the write is
    accepted and the dispatch raises, the record stays in the store, no
    notification is delivered, and the handler has made exactly those two
    calls: no retry, no compensating call. *)
Theorem C8_failures_propagate so cfg event context w f e :
  extract_fields event = Ok f ->
  (service_faults w (List.length (calls w)) = Some e ->
     fst (lambda_handler so cfg event context w) = Raise e /\
     calls_of (lambda_handler so cfg event context) w = [put_call cfg f w] /\
     table_items (snd (lambda_handler so cfg event context w)) =
       table_items w /\
     topic_messages (snd (lambda_handler so cfg event context w)) =
       topic_messages w) /\
  (service_faults w (List.length (calls w)) = None ->
   service_faults w (S (List.length (calls w))) = Some e ->
     fst (lambda_handler so cfg event context w) = Raise e /\
     calls_of (lambda_handler so cfg event context) w =
       [put_call cfg f w; publish_call so cfg f w] /\
     table_items (snd (lambda_handler so cfg event context w)) =
       (table_items w ++
        [(DYNAMODB_TABLE cfg, make_item f (timestamp_at w))])%list /\
     topic_messages (snd (lambda_handler so cfg event context w)) =
       topic_messages w).
Proof.
  intros Hf.
  pose proof (lambda_handler_run so cfg event context w) as R.
  split.
  - intros H1. inversion R; try congruence.
    assert (f0 = f) by congruence. assert (e0 = e) by congruence. subst.
    auto.
  - intros H1 H2. inversion R; try congruence.
    assert (f0 = f) by congruence. assert (e0 = e) by congruence. subst.
    auto.
Qed.

Lemma C8_failures_propagate_witness :
  fst (lambda_handler Example.str_unused Example.cfg Example.empty_event VNone
         Example.topic_down) = Raise (ServiceError 503) /\
  table_items (snd (lambda_handler Example.str_unused Example.cfg
                      Example.empty_event VNone Example.topic_down)) =
    [("ecr-images",
      make_item {| image_tag := unknown_tag; repository := unknown_repo;
                   pushed_by := unknown_user |}
                (timestamp_at Example.topic_down))].
Proof.
  destruct (proj2 (C8_failures_propagate Example.str_unused Example.cfg
                     Example.empty_event VNone Example.topic_down
                     {| image_tag := unknown_tag; repository := unknown_repo;
                        pushed_by := unknown_user |}
                     (ServiceError 503) eq_refl) eq_refl eq_refl)
    as (Hr & _ & Hs & _).
  exact (conj Hr Hs).
Defined.

(** ** Configuration *)

(** C9: when [DYNAMODB_TABLE] or [SNS_TOPIC_ARN] is not in the environment,
    the module body raises (the [KeyError] of the first missing name, when
    the two handles could be built), so the execution environment fails at
    import: whatever events are waiting, none is handled and the world is
    left as it was. *)
Theorem C9_missing_configuration so boto3_fault environ :
  env_lookup "DYNAMODB_TABLE" environ = None \/
  env_lookup "SNS_TOPIC_ARN" environ = None ->
  (exists e, module_body boto3_fault environ = Raise e) /\
  (boto3_fault "dynamodb" = None -> boto3_fault "sns" = None ->
   exists k, module_body boto3_fault environ = Raise (KeyError k) /\
             (k = "DYNAMODB_TABLE" \/ k = "SNS_TOPIC_ARN") /\
             env_lookup k environ = None) /\
  (forall events w,
     exists e,
       execution_environment so boto3_fault environ events w = (Raise e, w)).
Proof.
  intros Hmiss.
  assert (Hb : (exists e, module_body boto3_fault environ = Raise e) /\
               (boto3_fault "dynamodb" = None -> boto3_fault "sns" = None ->
                exists k, module_body boto3_fault environ = Raise (KeyError k) /\
                          (k = "DYNAMODB_TABLE" \/ k = "SNS_TOPIC_ARN") /\
                          env_lookup k environ = None)).
  { unfold module_body, boto3_handle, environ_getitem.
    destruct (boto3_fault "dynamodb") as [e1|]; simpl;
      [split; [eauto | discriminate]|].
    destruct (boto3_fault "sns") as [e2|]; simpl;
      [split; [eauto | discriminate]|].
    destruct (env_lookup "DYNAMODB_TABLE" environ) as [t|] eqn:Ht; simpl.
    - destruct Hmiss as [Hmiss|Hmiss]; [discriminate|].
      rewrite Hmiss; simpl. split; eauto 6.
    - split; eauto 6. }
  destruct Hb as [[e He] Hk].
  split; [eauto|]. split; [exact Hk|].
  intros events w. exists e. unfold execution_environment. now rewrite He.
Qed.

Lemma C9_missing_configuration_witness :
  exists e,
    execution_environment Example.str_unused Example.boto3_fine
      Example.env_no_topic [Example.hook_event] Example.quiet =
    (Raise e, Example.quiet).
Proof.
  exact (proj2 (proj2 (C9_missing_configuration Example.str_unused
           Example.boto3_fine Example.env_no_topic (or_intror eq_refl)))
           [Example.hook_event] Example.quiet).
Defined.

(** ** One reading of the clock *)

(** C10: the [Timestamp] of the record and the timestamp on the fifth line
    of the message are one and the same string, the rendering of the single
    clock reading of the invocation. *)
Theorem C10_one_clock_reading so cfg event context w tbl item arn msg subj :
  In (PutItem tbl item) (calls_of (lambda_handler so cfg event context) w) ->
  In (Publish arn msg subj) (calls_of (lambda_handler so cfg event context) w) ->
  exists ts f,
    dict_lookup "Timestamp" item = Some (VStr ts) /\
    msg = String.concat newline
            ["Docker image pushed successfully!";
             "Repository: " ++ format_value so (repository f);
             "Tag: " ++ format_value so (image_tag f);
             "Pushed By: " ++ format_value so (pushed_by f);
             "Timestamp: " ++ ts] /\
    ts = isoformat (utc_clock w (clock_reads w)) /\
    clock_reads (snd (lambda_handler so cfg event context w)) =
      S (clock_reads w).
Proof.
  intros Hput Hpub.
  pose proof (lambda_handler_run so cfg event context w) as R.
  destruct (handler_run_put _ _ _ _ _ _ _ _ _ R Hput) as (f & Hf & -> & ->).
  exists (timestamp_at w), f.
  split; [reflexivity|].
  destruct R as [e He | f' e Hf' H1 | f' e Hf' H1 H2 | f' Hf' H1 H2];
    simpl in Hpub; unfold put_call, publish_call in Hpub;
    repeat (destruct Hpub as [Hpub|Hpub]; try discriminate Hpub);
    try contradiction;
    inversion Hpub; subst;
    assert (f' = f) by congruence; subst f';
    (split; [apply make_message_lines | split; reflexivity]).
Qed.

Lemma C10_one_clock_reading_witness :
  exists ts f,
    dict_lookup "Timestamp"
      (make_item {| image_tag := VStr "latest"; repository := VStr "svc";
                    pushed_by := VStr "ci-bot" |}
                 (timestamp_at Example.quiet)) = Some (VStr ts) /\
    make_message Example.str_unused
      {| image_tag := VStr "latest"; repository := VStr "svc";
         pushed_by := VStr "ci-bot" |} (timestamp_at Example.quiet) =
    String.concat newline
      ["Docker image pushed successfully!";
       "Repository: " ++ format_value Example.str_unused (repository f);
       "Tag: " ++ format_value Example.str_unused (image_tag f);
       "Pushed By: " ++ format_value Example.str_unused (pushed_by f);
       "Timestamp: " ++ ts].
Proof.
  destruct (C10_one_clock_reading Example.str_unused Example.cfg
              Example.hook_event VNone Example.quiet _ _ _ _ _
              (or_introl eq_refl) (or_intror (or_introl eq_refl)))
    as (ts & f & Hts & Hmsg & _).
  exact (ex_intro _ ts (ex_intro _ f (conj Hts Hmsg))).
Defined.

(** * Further properties of the handler *)

(** ** Events that are not maps, and failed resolutions *)

(** X1: an event that is not a map (a JSON string, array, number, boolean
    or null) makes the handler raise, [TypeError] or [AttributeError] as
    [non_map_error] tells, and leaves the world untouched: no clock
    reading, no service call. *)
Theorem X1_non_map_event_raises so cfg event context w :
  is_map event = false ->
  lambda_handler so cfg event context w = (Raise (non_map_error event), w).
Proof.
  intros Hm. apply lambda_handler_bad_event.
  destruct event; try reflexivity; try discriminate Hm.
  - unfold extract_fields; simpl.
    destruct (is_substring "detail" s); reflexivity.
  - unfold extract_fields; simpl.
    destruct (existsb (is_str "detail") l); reflexivity.
Qed.

Lemma X1_non_map_event_raises_witness :
  lambda_handler Example.str_unused Example.cfg
    (VList [VStr "detail"; VInt 7]) VNone Example.quiet =
  (Raise TypeError, Example.quiet).
Proof.
  exact (X1_non_map_event_raises Example.str_unused Example.cfg
           (VList [VStr "detail"; VInt 7]) VNone Example.quiet eq_refl).
Defined.

(** X2: the clock is read exactly once when field resolution succeeds,
    also when the write or the dispatch then raises, and not at all when
    resolution raises, in which case the world is left exactly as it
    was. *)
Theorem X2_clock_read_iff_resolved so cfg event context w :
  clock_reads (snd (lambda_handler so cfg event context w)) =
    (if Shape.well_shaped event then S (clock_reads w) else clock_reads w) /\
  (Shape.well_shaped event = false ->
   snd (lambda_handler so cfg event context w) = w /\
   exists e, fst (lambda_handler so cfg event context w) = Raise e).
Proof.
  destruct (Shape.well_shaped event) eqn:Hw.
  - split; [|discriminate].
    destruct (proj2 (extract_fields_ok_iff event) Hw) as [f Hf].
    rewrite (lambda_handler_resolved so cfg event context w f Hf).
    destruct (service_faults w (List.length (calls w))); [reflexivity|].
    cbv zeta.
    destruct (service_faults w (S (List.length (calls w)))); reflexivity.
  - destruct (extract_fields event) as [f|e] eqn:Hf.
    + assert (Shape.well_shaped event = true)
        by (apply extract_fields_ok_iff; eauto).
      congruence.
    + rewrite (lambda_handler_bad_event so cfg event context w e Hf).
      simpl. eauto.
Qed.

(** X3: the handler returns its envelope exactly when the event is a map
    whose [detail], if present, is a map, and both service calls answer;
    in every other case it raises. *)
Theorem X3_returns_iff so cfg event context w :
  fst (lambda_handler so cfg event context w) = Ok response <->
  Shape.well_shaped event = true /\
  service_faults w (List.length (calls w)) = None /\
  service_faults w (S (List.length (calls w))) = None.
Proof.
  pose proof (lambda_handler_run so cfg event context w) as R.
  split.
  - intros Hr. inversion R; try congruence.
    repeat split; auto. apply extract_fields_ok_iff; eauto.
  - intros (Hw & H1 & H2).
    destruct (proj2 (extract_fields_ok_iff event) Hw) as [f Hf].
    rewrite (lambda_handler_resolved so cfg event context w f Hf), H1.
    cbv zeta. now rewrite H2.
Qed.

(** ** The footprint of field resolution *)

Lemma dict_mem_set_other (k k' : string) (v : value) (d : dict) :
  k <> k' -> dict_mem k' (dict_set k v d) = dict_mem k' d.
Proof.
  intros Hne. unfold dict_mem. now rewrite dict_lookup_set_other.
Qed.

(** X4: a top-level key the chosen shape does not read ([detail] and
    [account] for a bus event; [detail], [image_tag], [repository] and
    [pushed_by] for a webhook event) can be added or changed at will
    without changing the resolved fields or the error. *)
Theorem X4_unread_keys_ignored (d : dict) (k : string) (v : value) :
  is_read d k = false ->
  extract_fields (VDict (dict_set k v d)) = extract_fields (VDict d).
Proof.
  unfold is_read, read_keys, dict_mem. intros Hk.
  rewrite !extract_fields_dict. unfold dict_get.
  destruct (dict_lookup "detail" d) as [dv|] eqn:Hd; simpl in Hk;
    repeat rewrite orb_false_iff in Hk;
    repeat match goal with H : _ /\ _ |- _ => destruct H end;
    repeat match goal with
           | H : String.eqb _ _ = false |- _ =>
               apply String.eqb_neq in H
           end;
    rewrite (dict_lookup_set_other k "detail") by congruence;
    rewrite Hd;
    rewrite !dict_lookup_set_other by congruence;
    reflexivity.
Qed.

Lemma X4_unread_keys_ignored_witness :
  extract_fields
    (VDict (dict_set "time" (VStr "2024-02-29T03:04:05Z")
              [("detail", VDict [("image-tag", VStr "v1.2")]);
               ("account", VStr "123456789012")])) =
  extract_fields
    (VDict [("detail", VDict [("image-tag", VStr "v1.2")]);
            ("account", VStr "123456789012")]).
Proof.
  exact (X4_unread_keys_ignored
           [("detail", VDict [("image-tag", VStr "v1.2")]);
            ("account", VStr "123456789012")]
           "time" (VStr "2024-02-29T03:04:05Z") eq_refl).
Defined.

(** X5: inside [detail] only [image-tag] and [repository-name] are read:
    any other key of [detail] can be added or changed without changing the
    resolved fields. *)
Theorem X5_unread_detail_keys_ignored (d detail : dict) (k : string) (v : value) :
  dict_lookup "detail" d = Some (VDict detail) ->
  String.eqb k "image-tag" = false ->
  String.eqb k "repository-name" = false ->
  extract_fields (VDict (dict_set "detail" (VDict (dict_set k v detail)) d)) =
  extract_fields (VDict d).
Proof.
  intros Hd Ht Hr.
  apply String.eqb_neq in Ht. apply String.eqb_neq in Hr.
  rewrite !extract_fields_dict.
  rewrite dict_lookup_set_same, Hd. unfold dict_get.
  rewrite !dict_lookup_set_other by congruence.
  reflexivity.
Qed.

Lemma X5_unread_detail_keys_ignored_witness :
  extract_fields
    (VDict (dict_set "detail"
              (VDict (dict_set "action-type" (VStr "PUSH")
                        [("image-tag", VStr "v1.2")]))
              [("detail", VDict [("image-tag", VStr "v1.2")])])) =
  extract_fields (VDict [("detail", VDict [("image-tag", VStr "v1.2")])]).
Proof.
  exact (X5_unread_detail_keys_ignored
           [("detail", VDict [("image-tag", VStr "v1.2")])]
           [("image-tag", VStr "v1.2")] "action-type" (VStr "PUSH")
           eq_refl eq_refl eq_refl).
Defined.

(** X6: a sentinel cannot be told from a supplied value: a webhook event
    that lacks one of its three keys resolves to the same fields as the
    event that supplies the sentinel text under that key. *)
Theorem X6_sentinel_is_ambiguous (d : dict) (k s : string) :
  In (k, s) [("image_tag", "unknown-tag"); ("repository", "unknown-repo");
             ("pushed_by", "unknown-user")] ->
  dict_lookup "detail" d = None ->
  dict_lookup k d = None ->
  extract_fields (VDict (dict_set k (VStr s) d)) = extract_fields (VDict d).
Proof.
  intros Hin Hd Hk.
  rewrite !extract_fields_dict. unfold dict_get.
  simpl in Hin.
  destruct Hin as [H|[H|[H|[]]]]; inversion H; subst k s;
    rewrite ?dict_lookup_set_same;
    rewrite !dict_lookup_set_other by discriminate;
    rewrite Hd, ?Hk; reflexivity.
Qed.

Lemma X6_sentinel_is_ambiguous_witness :
  extract_fields (VDict (dict_set "image_tag" (VStr "unknown-tag") [])) =
  extract_fields (VDict []).
Proof.
  exact (X6_sentinel_is_ambiguous [] "image_tag" "unknown-tag"
           (or_introl eq_refl) eq_refl eq_refl).
Defined.

(** ** No state between invocations *)

(** X7: the handler never reads what the store or the topic hold, nor its
    [context]: two invocations on the same event that read the same clock
    value and get the same answers from the two services return the same
    result and make the same calls, whatever has been stored or sent
    before. *)
Theorem X7_outcome_ignores_store so cfg event context1 context2 w1 w2 :
  utc_clock w1 (clock_reads w1) = utc_clock w2 (clock_reads w2) ->
  service_faults w1 (List.length (calls w1)) =
    service_faults w2 (List.length (calls w2)) ->
  service_faults w1 (S (List.length (calls w1))) =
    service_faults w2 (S (List.length (calls w2))) ->
  fst (lambda_handler so cfg event context1 w1) =
    fst (lambda_handler so cfg event context2 w2) /\
  calls_of (lambda_handler so cfg event context1) w1 =
    calls_of (lambda_handler so cfg event context2) w2.
Proof.
  intros Hc H1 H2.
  assert (Ht : timestamp_at w1 = timestamp_at w2)
    by (unfold timestamp_at; now rewrite Hc).
  pose proof (lambda_handler_run so cfg event context1 w1) as R1.
  pose proof (lambda_handler_run so cfg event context2 w2) as R2.
  destruct R1; destruct R2; try congruence;
    try (assert (f0 = f) by congruence; subst f0);
    unfold put_call, publish_call; rewrite ?Ht; split; congruence.
Qed.

Lemma X7_outcome_ignores_store_witness :
  fst (lambda_handler Example.str_unused Example.cfg Example.hook_event VNone
         Example.quiet) =
  fst (lambda_handler Example.str_unused Example.cfg Example.hook_event
         (VStr "ctx")
         (snd (lambda_handler Example.str_unused Example.cfg Example.bus_event
                 VNone Example.quiet))).
Proof.
  exact (proj1 (X7_outcome_ignores_store Example.str_unused Example.cfg
           Example.hook_event VNone (VStr "ctx") Example.quiet
           (snd (lambda_handler Example.str_unused Example.cfg
                   Example.bus_event VNone Example.quiet))
           eq_refl eq_refl eq_refl)).
Defined.

(** X8: nothing is deduplicated: the same event delivered twice, with the
    services answering, is written twice and announced twice, the second
    time with the timestamp of the next clock reading. *)
Theorem X8_redelivery_writes_twice so cfg event w f :
  extract_fields event = Ok f ->
  service_faults w (List.length (calls w)) = None ->
  service_faults w (S (List.length (calls w))) = None ->
  service_faults w (S (S (List.length (calls w)))) = None ->
  service_faults w (S (S (S (List.length (calls w))))) = None ->
  fst (invoke_all so cfg [event; event] w) = [Ok response; Ok response] /\
  calls (snd (invoke_all so cfg [event; event] w)) =
    (calls w ++
     [PutItem (DYNAMODB_TABLE cfg)
        (make_item f (isoformat (utc_clock w (clock_reads w))));
      Publish (SNS_TOPIC_ARN cfg)
        (make_message so f (isoformat (utc_clock w (clock_reads w))))
        "ECR Image Push Notification";
      PutItem (DYNAMODB_TABLE cfg)
        (make_item f (isoformat (utc_clock w (S (clock_reads w)))));
      Publish (SNS_TOPIC_ARN cfg)
        (make_message so f (isoformat (utc_clock w (S (clock_reads w)))))
        "ECR Image Push Notification"])%list /\
  table_items (snd (invoke_all so cfg [event; event] w)) =
    (table_items w ++
     [(DYNAMODB_TABLE cfg,
       make_item f (isoformat (utc_clock w (clock_reads w))));
      (DYNAMODB_TABLE cfg,
       make_item f (isoformat (utc_clock w (S (clock_reads w)))))])%list.
Proof.
  intros Hf H0 H1 H2 H3.
  cbn [invoke_all].
  rewrite (lambda_handler_resolved so cfg event VNone w f Hf), H0.
  cbv zeta. rewrite H1.
  rewrite (lambda_handler_resolved so cfg event VNone _ f Hf).
  cbn [service_faults calls deliver log_call store_item tick].
  rewrite !length_snoc, H2. cbv zeta.
  cbn [service_faults calls deliver log_call store_item tick].
  rewrite H3.
  cbn [fst snd calls table_items deliver log_call store_item tick].
  unfold put_call, publish_call, timestamp_at.
  cbn [utc_clock clock_reads deliver log_call store_item tick].
  rewrite <- !app_assoc. auto.
Qed.

Lemma X8_redelivery_writes_twice_witness :
  fst (invoke_all Example.str_unused Example.cfg
         [Example.hook_event; Example.hook_event] Example.quiet) =
  [Ok response; Ok response].
Proof.
  exact (proj1 (X8_redelivery_writes_twice Example.str_unused Example.cfg
           Example.hook_event Example.quiet
           {| image_tag := VStr "latest"; repository := VStr "svc";
              pushed_by := VStr "ci-bot" |}
           eq_refl eq_refl eq_refl eq_refl eq_refl)).
Defined.

(** ** The timestamp text *)

(** X9: different clock readings give different timestamps: on datetimes
    in range [isoformat] is injective. *)
Theorem X9_isoformat_injective (t1 t2 : datetime) :
  valid_datetime t1 = true ->
  valid_datetime t2 = true ->
  isoformat t1 = isoformat t2 ->
  t1 = t2.
Proof.
  intros H1 H2 Heq.
  pose proof (parse_isoformat t1 H1) as P1.
  pose proof (parse_isoformat t2 H2) as P2.
  rewrite Heq in P1. congruence.
Qed.

Lemma X9_isoformat_injective_witness : Example.leap_day = Example.leap_day.
Proof.
  exact (X9_isoformat_injective Example.leap_day Example.leap_day
           eq_refl eq_refl eq_refl).
Defined.

Lemma string_length_append (a b : string) :
  String.length (a ++ b) = String.length a + String.length b.
Proof. induction a; simpl; congruence. Qed.

Lemma zero_padded_length (w : nat) (n : Z) :
  String.length (zero_padded w n) = w.
Proof.
  revert n. induction w as [|w IH]; intros n; simpl; [reflexivity|].
  now rewrite IH.
Qed.

(** X10: the timestamp has two layouts: 19 characters
    ([YYYY-MM-DDTHH:MM:SS]) when the clock reading has no microseconds, 26
    (with [.ffffff]) otherwise. *)
Theorem X10_timestamp_length (t : datetime) :
  String.length (isoformat t) =
  if (microsecond t =? 0)%Z then 19 else 26.
Proof.
  unfold isoformat.
  repeat rewrite string_length_append.
  destruct (microsecond t =? 0)%Z;
    repeat rewrite string_length_append;
    rewrite !zero_padded_length; reflexivity.
Qed.

(** ** The lines of the message *)

Lemma has_line_feed_append (a b : string) :
  has_line_feed (a ++ b) = has_line_feed a || has_line_feed b.
Proof.
  induction a as [|c a IH]; simpl; [reflexivity|].
  now rewrite IH, orb_assoc.
Qed.

Lemma lines_single (a : string) :
  has_line_feed a = false -> lines a = [a].
Proof.
  induction a as [|c a IH]; simpl; [reflexivity|].
  intros H. apply orb_false_iff in H as [Hc Ha].
  now rewrite Hc, (IH Ha).
Qed.

Lemma lines_append (a rest : string) :
  has_line_feed a = false ->
  lines (a ++ newline ++ rest) = a :: lines rest.
Proof.
  induction a as [|c a IH]; intros H; [reflexivity|].
  cbn [append lines has_line_feed] in *.
  apply orb_false_iff in H as [Hc Ha].
  now rewrite Hc, (IH Ha).
Qed.

Lemma digit_not_line_feed (d : Z) :
  (0 <= d < 10)%Z -> Ascii.eqb (digit d) "010"%char = false.
Proof.
  intros Hd.
  assert (H : (d = 0 \/ d = 1 \/ d = 2 \/ d = 3 \/ d = 4 \/ d = 5 \/ d = 6 \/
               d = 7 \/ d = 8 \/ d = 9)%Z) by lia.
  repeat (destruct H as [->|H]; [reflexivity|]). subst d. reflexivity.
Qed.

Lemma zero_padded_no_line_feed (w : nat) :
  forall n : Z,
    (0 <= n < 10 ^ Z.of_nat w)%Z -> has_line_feed (zero_padded w n) = false.
Proof.
  induction w as [|w IH]; intros n Hn; [reflexivity|].
  rewrite Nat2Z.inj_succ, Z.pow_succ_r in Hn by lia.
  assert (Hp : (0 < 10 ^ Z.of_nat w)%Z) by (apply Z.pow_pos_nonneg; lia).
  cbn [zero_padded has_line_feed].
  rewrite digit_not_line_feed
    by (split; [apply Z.div_pos; lia | apply Z.div_lt_upper_bound; lia]).
  rewrite IH by (apply Z.mod_pos_bound; lia).
  reflexivity.
Qed.

Lemma isoformat_no_line_feed (t : datetime) :
  valid_datetime t = true -> has_line_feed (isoformat t) = false.
Proof.
  intros Hv. unfold valid_datetime in Hv.
  repeat rewrite andb_true_iff in Hv.
  repeat rewrite Z.leb_le in Hv. repeat rewrite Z.ltb_lt in Hv.
  repeat match goal with H : _ /\ _ |- _ => destruct H end.
  pose proof (days_in_month_le_31 (year t) (month t)) as Hdm.
  unfold isoformat.
  repeat rewrite has_line_feed_append.
  rewrite (zero_padded_no_line_feed 4)
    by (change (10 ^ Z.of_nat 4)%Z with 10000%Z; lia).
  rewrite !(zero_padded_no_line_feed 2)
    by (change (10 ^ Z.of_nat 2)%Z with 100%Z; lia).
  destruct (microsecond t =? 0)%Z; [reflexivity|].
  rewrite has_line_feed_append.
  rewrite (zero_padded_no_line_feed 6)
    by (change (10 ^ Z.of_nat 6)%Z with 1000000%Z; lia).
  reflexivity.
Qed.

(** What a run announced, if it attempted a dispatch. *)
Lemma handler_run_publish so cfg event w r w' cs arn msg subj :
  handler_run so cfg event w r w' cs ->
  In (Publish arn msg subj) cs ->
  exists f, extract_fields event = Ok f /\
            arn = SNS_TOPIC_ARN cfg /\
            msg = make_message so f (timestamp_at w) /\
            subj = "ECR Image Push Notification".
Proof.
  intros R Hin. destruct R; simpl in Hin; unfold put_call, publish_call in Hin;
    repeat (destruct Hin as [Hin|Hin]; try discriminate Hin);
    try contradiction; inversion Hin; subst; eauto.
Qed.

(** X11: values are pasted into the message as they are, so the message has
    its five lines exactly when no value brings a line feed of its own:
    with a clock reading in range and three values whose text has no line
    feed, splitting the message at line feeds gives the five lines of the
    template. *)
Theorem X11_message_has_five_lines so cfg event context w f arn msg subj :
  extract_fields event = Ok f ->
  valid_datetime (utc_clock w (clock_reads w)) = true ->
  has_line_feed (format_value so (repository f)) = false ->
  has_line_feed (format_value so (image_tag f)) = false ->
  has_line_feed (format_value so (pushed_by f)) = false ->
  In (Publish arn msg subj) (calls_of (lambda_handler so cfg event context) w) ->
  lines msg =
    ["Docker image pushed successfully!";
     "Repository: " ++ format_value so (repository f);
     "Tag: " ++ format_value so (image_tag f);
     "Pushed By: " ++ format_value so (pushed_by f);
     "Timestamp: " ++ isoformat (utc_clock w (clock_reads w))].
Proof.
  intros Hf Hv Hr Ht Hb Hin.
  destruct (handler_run_publish _ _ _ _ _ _ _ _ _ _
              (lambda_handler_run so cfg event context w) Hin)
    as (f' & Hf' & _ & -> & _).
  assert (f' = f) by congruence. subst f'.
  rewrite make_message_lines. cbn [String.concat].
  unfold timestamp_at.
  rewrite lines_append by reflexivity.
  rewrite lines_append by (rewrite has_line_feed_append, Hr; reflexivity).
  rewrite lines_append by (rewrite has_line_feed_append, Ht; reflexivity).
  rewrite lines_append by (rewrite has_line_feed_append, Hb; reflexivity).
  rewrite lines_single
    by (rewrite has_line_feed_append, (isoformat_no_line_feed _ Hv);
        reflexivity).
  reflexivity.
Qed.

Lemma X11_message_has_five_lines_witness :
  List.length
    (lines (make_message Example.str_unused
              {| image_tag := VStr "latest"; repository := VStr "svc";
                 pushed_by := VStr "ci-bot" |}
              (timestamp_at Example.quiet))) = 5.
Proof.
  exact (f_equal (@List.length string)
           (X11_message_has_five_lines Example.str_unused Example.cfg
              Example.hook_event VNone Example.quiet
              {| image_tag := VStr "latest"; repository := VStr "svc";
                 pushed_by := VStr "ci-bot" |}
              _ _ _ eq_refl eq_refl eq_refl eq_refl eq_refl
              (or_intror (or_introl eq_refl)))).
Defined.

(** ** Configuration and the calls it aims *)

(** X12: the module body yields a configuration exactly when both handles
    can be built and both names are in the environment, and then the
    configuration holds the two values found there. *)
Theorem X12_module_body_ok_iff boto3_fault environ cfg :
  module_body boto3_fault environ = Ok cfg <->
  boto3_fault "dynamodb" = None /\
  boto3_fault "sns" = None /\
  env_lookup "DYNAMODB_TABLE" environ = Some (DYNAMODB_TABLE cfg) /\
  env_lookup "SNS_TOPIC_ARN" environ = Some (SNS_TOPIC_ARN cfg).
Proof.
  unfold module_body, boto3_handle, environ_getitem.
  destruct cfg as [t a]; simpl.
  destruct (boto3_fault "dynamodb"); simpl;
    [split; [discriminate | intros (H & _); discriminate]|].
  destruct (boto3_fault "sns"); simpl;
    [split; [discriminate | intros (_ & H & _); discriminate]|].
  destruct (env_lookup "DYNAMODB_TABLE" environ); simpl;
    [|split; [discriminate | intros (_ & _ & H & _); discriminate]].
  destruct (env_lookup "SNS_TOPIC_ARN" environ); simpl;
    [|split; [discriminate | intros (_ & _ & _ & H); discriminate]].
  split.
  - intros H. inversion H; subst. auto.
  - intros (_ & _ & H1 & H2). congruence.
Qed.

Lemma module_body_env boto3_fault environ cfg :
  module_body boto3_fault environ = Ok cfg ->
  env_lookup "DYNAMODB_TABLE" environ = Some (DYNAMODB_TABLE cfg) /\
  env_lookup "SNS_TOPIC_ARN" environ = Some (SNS_TOPIC_ARN cfg).
Proof.
  unfold module_body, boto3_handle, environ_getitem.
  destruct (boto3_fault "dynamodb"); simpl; [discriminate|].
  destruct (boto3_fault "sns"); simpl; [discriminate|].
  destruct (env_lookup "DYNAMODB_TABLE" environ); simpl; [|discriminate].
  destruct (env_lookup "SNS_TOPIC_ARN" environ); simpl; [|discriminate].
  intros H. inversion H; subst. auto.
Qed.

Lemma invoke_all_calls so cfg events :
  forall w,
    List.length (fst (invoke_all so cfg events w)) = List.length events /\
    exists cs,
      calls (snd (invoke_all so cfg events w)) = (calls w ++ cs)%list /\
      List.length cs <= 2 * List.length events /\
      Forall (targets (DYNAMODB_TABLE cfg) (SNS_TOPIC_ARN cfg)) cs.
Proof.
  induction events as [|ev rest IH]; intros w.
  - simpl. split; [reflexivity|]. exists []. rewrite app_nil_r. auto.
  - cbn [invoke_all].
    pose proof (lambda_handler_run so cfg ev VNone w) as R.
    destruct (lambda_handler so cfg ev VNone w) as [r w1].
    cbn [fst snd] in R.
    specialize (IH w1).
    destruct (invoke_all so cfg rest w1) as [rs w2].
    cbn [fst snd] in *.
    destruct IH as (Hlen & cs2 & Hcalls & Hbound & Hall).
    split; [simpl; now rewrite Hlen|].
    pose proof (handler_run_log _ _ _ _ _ _ _ R) as Hlog.
    exists (calls_of (lambda_handler so cfg ev VNone) w ++ cs2)%list.
    split; [rewrite Hcalls, Hlog; now rewrite app_assoc|].
    rewrite length_app.
    destruct R; simpl; (split; [lia|]);
      repeat (apply Forall_cons; [simpl; auto|]); exact Hall.
Qed.

(** X13: once the module is imported, every call made while a batch of
    events is handled goes to the table and the topic named in the
    environment, with the fixed subject; each event makes at most two calls
    and gets exactly one result, raised or returned. *)
Theorem X13_calls_target_configuration so boto3_fault environ events w rs w' :
  execution_environment so boto3_fault environ events w = (Ok rs, w') ->
  exists table arn cs,
    env_lookup "DYNAMODB_TABLE" environ = Some table /\
    env_lookup "SNS_TOPIC_ARN" environ = Some arn /\
    calls w' = (calls w ++ cs)%list /\
    Forall (targets table arn) cs /\
    List.length cs <= 2 * List.length events /\
    List.length rs = List.length events.
Proof.
  unfold execution_environment. intros H.
  destruct (module_body boto3_fault environ) as [cfg|e] eqn:Hm;
    [|discriminate].
  destruct (module_body_env _ _ _ Hm) as (Ht & Ha).
  destruct (invoke_all_calls so cfg events w) as (Hlen & cs & Hc & Hb & Hall).
  destruct (invoke_all so cfg events w) as [rs0 w0].
  inversion H; subst. cbn [fst snd] in *.
  exists (DYNAMODB_TABLE cfg), (SNS_TOPIC_ARN cfg), cs. auto 10.
Qed.

Lemma X13_calls_target_configuration_witness :
  exists table arn cs,
    env_lookup "DYNAMODB_TABLE" Example.env_full = Some table /\
    env_lookup "SNS_TOPIC_ARN" Example.env_full = Some arn /\
    calls (snd (execution_environment Example.str_unused Example.boto3_fine
                  Example.env_full [Example.hook_event] Example.quiet)) =
      (calls Example.quiet ++ cs)%list /\
    Forall (targets table arn) cs.
Proof.
  destruct (X13_calls_target_configuration Example.str_unused
              Example.boto3_fine Example.env_full [Example.hook_event]
              Example.quiet _ _ eq_refl)
    as (table & arn & cs & Ht & Ha & Hc & Hall & _).
  exact (ex_intro _ table (ex_intro _ arn (ex_intro _ cs
           (conj Ht (conj Ha (conj Hc Hall)))))).
Defined.
